(** * sez_to_ecef.py: SEZ to ECEF conversion

    A shallow embedding of [sez_to_ecef.py] and the proofs of its
    specification.

    Numbers.  A Python [float] is modelled by [pyfloat]: a finite value is
    the real number it denotes, next to the three special values [inf],
    [-inf] and [nan].  The values of finite arithmetic are those of the
    reals: binary64 rounding and the sign of zero are not modelled, and the
    sum or product of two finite floats stays finite.  What decides whether
    the script raises is modelled as Python has it: [float()] reads a
    decimal at or beyond the binary64 range as an infinity, [x ** 2] raises
    [OverflowError] beyond that range, [math.sin] and [math.cos] raise on
    an infinity, [math.sqrt] raises on a negative number, and a zero
    divisor raises.  The special values follow IEEE 754.

    Effects.  A Python exception is a [Raise] in the [result] monad; the
    script's standard output is a list of lines; how the script ends is an
    [ending]. *)

From Stdlib Require Import Reals Lra Psatz ZArith Lia Bool List String Ascii.
Import ListNotations.

Open Scope R_scope.

(** ** Exceptions *)

Inductive exn : Type :=
  | ValueError
  | ZeroDivisionError
  | OverflowError.

Inductive result (A : Type) : Type :=
  | Ok (a : A)
  | Raise (e : exn).

Arguments Ok {A} a.
Arguments Raise {A} e.

Definition bind {A B : Type} (m : result A) (k : A -> result B) : result B :=
  match m with
  | Ok a => k a
  | Raise e => Raise e
  end.

Notation "x <- m ;; k" := (bind m (fun x => k))
  (at level 61, m at next level, right associativity).
Notation "' p <- m ;; k" := (bind m (fun p => k))
  (at level 61, p pattern, m at next level, right associativity).

(** ** Python floats *)

Inductive pyfloat : Type :=
  | Fin (r : R)
  | PInf
  | NInf
  | NaN.

(** Where binary64 ends: halfway between the largest finite double,
    [2^1024 - 2^971], and [2^1024].  A magnitude from here on rounds to an
    infinity. *)
Definition DBL_OVERFLOW_Z : Z := 2 ^ 1024 - 2 ^ 970.

Definition DBL_OVERFLOW : R := IZR DBL_OVERFLOW_Z.

Module PyFloat.

Definition is_inf (x : pyfloat) : bool :=
  match x with
  | PInf | NInf => true
  | _ => false
  end.

(** [-x] *)
Definition neg (x : pyfloat) : pyfloat :=
  match x with
  | Fin r => Fin (- r)
  | PInf => NInf
  | NInf => PInf
  | NaN => NaN
  end.

(** The infinity with the sign of [r] times the sign of [PInf]; [nan]
    for [r = 0]. *)
Definition inf_times (r : R) : pyfloat :=
  if Rlt_dec 0 r then PInf
  else if Rlt_dec r 0 then NInf
  else NaN.

(** [x + y] *)
Definition add (x y : pyfloat) : pyfloat :=
  match x, y with
  | NaN, _ | _, NaN => NaN
  | Fin a, Fin b => Fin (a + b)
  | PInf, NInf | NInf, PInf => NaN
  | PInf, _ | _, PInf => PInf
  | NInf, _ | _, NInf => NInf
  end.

(** [x - y] *)
Definition sub (x y : pyfloat) : pyfloat := add x (neg y).

(** [x * y] *)
Definition mul (x y : pyfloat) : pyfloat :=
  match x, y with
  | NaN, _ | _, NaN => NaN
  | Fin a, Fin b => Fin (a * b)
  | Fin a, PInf | PInf, Fin a => inf_times a
  | Fin a, NInf | NInf, Fin a => neg (inf_times a)
  | PInf, PInf | NInf, NInf => PInf
  | PInf, NInf | NInf, PInf => NInf
  end.

(** [x / y]: Python tests the divisor for zero before it divides. *)
Definition div (x y : pyfloat) : result pyfloat :=
  match y with
  | Fin b =>
      if Req_dec_T b 0 then Raise ZeroDivisionError
      else match x with
           | Fin a => Ok (Fin (a / b))
           | PInf => Ok (inf_times b)
           | NInf => Ok (neg (inf_times b))
           | NaN => Ok NaN
           end
  | PInf | NInf =>
      match x with
      | Fin _ => Ok (Fin 0)
      | _ => Ok NaN
      end
  | NaN => Ok NaN
  end.

(** [x ** 2]: a finite [x] whose square leaves the binary64 range raises
    [OverflowError]. *)
Definition sqr (x : pyfloat) : result pyfloat :=
  match x with
  | Fin r =>
      if Rle_dec DBL_OVERFLOW (r ^ 2) then Raise OverflowError
      else Ok (Fin (r ^ 2))
  | PInf | NInf => Ok PInf
  | NaN => Ok NaN
  end.

End PyFloat.

(** ** The [math] module *)

Module math.

(** [math.sqrt]: a negative argument is a domain error. *)
Definition sqrt (x : pyfloat) : result pyfloat :=
  match x with
  | Fin r => if Rlt_dec r 0 then Raise ValueError else Ok (Fin (sqrt r))
  | PInf => Ok PInf
  | NInf => Raise ValueError
  | NaN => Ok NaN
  end.

(** [math.sin]: an infinite argument is a domain error. *)
Definition sin (x : pyfloat) : result pyfloat :=
  match x with
  | Fin r => Ok (Fin (sin r))
  | PInf | NInf => Raise ValueError
  | NaN => Ok NaN
  end.

(** [math.cos]: an infinite argument is a domain error. *)
Definition cos (x : pyfloat) : result pyfloat :=
  match x with
  | Fin r => Ok (Fin (cos r))
  | PInf | NInf => Raise ValueError
  | NaN => Ok NaN
  end.

(** [math.radians]: the argument times pi/180. *)
Definition radians (x : pyfloat) : pyfloat :=
  PyFloat.mul x (Fin (PI / 180)).

End math.

(** ** The script's constants and helper functions *)

(** Equatorial radius in kilometers *)
Definition R_E_KM : pyfloat := Fin 6378.137.

(** Earth's eccentricity *)
Definition E_E : pyfloat := Fin 0.081819221456.

(** [calc_denom]: the denominator in the ECEF conversion equation. *)
Definition calc_denom (ecc lat_rad : pyfloat) : result pyfloat :=
  e2 <- PyFloat.sqr ecc ;;
  s <- math.sin lat_rad ;;
  s2 <- PyFloat.sqr s ;;
  math.sqrt (PyFloat.sub (Fin 1) (PyFloat.mul e2 s2)).

(** [llh_to_ecef]: the observer's latitude, longitude and height to ECEF
    coordinates. *)
Definition llh_to_ecef (o_lat_rad o_lon_rad o_hae_km : pyfloat)
  : result (pyfloat * pyfloat * pyfloat) :=
  denom <- calc_denom E_E o_lat_rad ;;
  N <- PyFloat.div R_E_KM denom ;;
  x <- (c1 <- math.cos o_lat_rad ;;
        c2 <- math.cos o_lon_rad ;;
        Ok (PyFloat.mul (PyFloat.mul (PyFloat.add N o_hae_km) c1) c2)) ;;
  y <- (c1 <- math.cos o_lat_rad ;;
        s2 <- math.sin o_lon_rad ;;
        Ok (PyFloat.mul (PyFloat.mul (PyFloat.add N o_hae_km) c1) s2)) ;;
  z <- (e2 <- PyFloat.sqr E_E ;;
        s1 <- math.sin o_lat_rad ;;
        Ok (PyFloat.mul
              (PyFloat.add
                 (PyFloat.mul N (PyFloat.sub (Fin 1) e2))
                 o_hae_km)
              s1)) ;;
  Ok (x, y, z).

(** [sez_to_ecef]: the SEZ vector to ECEF axes, given the observer's
    latitude and longitude. *)
Definition sez_to_ecef (o_lat_rad o_lon_rad s_km e_km z_km : pyfloat)
  : result (pyfloat * pyfloat * pyfloat) :=
  cos_lat <- math.cos o_lat_rad ;;
  sin_lat <- math.sin o_lat_rad ;;
  cos_lon <- math.cos o_lon_rad ;;
  sin_lon <- math.sin o_lon_rad ;;
  let ecef_x :=
    PyFloat.add
      (PyFloat.add (PyFloat.mul (PyFloat.mul s_km sin_lat) cos_lon)
                   (PyFloat.mul e_km (PyFloat.neg sin_lon)))
      (PyFloat.mul (PyFloat.mul z_km cos_lat) cos_lon) in
  let ecef_y :=
    PyFloat.add
      (PyFloat.add (PyFloat.mul (PyFloat.mul s_km sin_lat) sin_lon)
                   (PyFloat.mul e_km cos_lon))
      (PyFloat.mul (PyFloat.mul z_km cos_lat) sin_lon) in
  let ecef_z :=
    PyFloat.add (PyFloat.mul s_km (PyFloat.neg cos_lat))
                (PyFloat.mul z_km sin_lat) in
  Ok (ecef_x, ecef_y, ecef_z).

(** ** Python strings

    A [str] is a sequence of code points.  A code point below 256 is given
    as it is; one above is given by what the Unicode database says of it,
    which is all [float()] asks: whether it is whitespace, a decimal digit
    and of which value, or neither. *)

Inductive udigit : Type :=
  | D0 | D1 | D2 | D3 | D4 | D5 | D6 | D7 | D8 | D9.

Inductive pychar : Type :=
  | Chr (c : ascii)
  | USpace
  | UDigit (d : udigit)
  | UOther.

Definition pystr : Type := list pychar.

(** The [str] of a text whose characters are below 256. *)
Definition str (s : string) : pystr := map Chr (list_ascii_of_string s).

(** ** The builtin [float()] on a command-line argument

    Python first rewrites a [str] that is not ASCII: whitespace becomes a
    blank and a decimal digit its ASCII digit; at any other character that
    is not ASCII the text ends in a question mark.  Then it strips ASCII
    whitespace at both ends, checks and drops underscores, which may stand
    only between two digits, and reads a sign followed by [inf],
    [infinity] or [nan] in any case, or by a decimal number with an
    optional fraction and exponent.  A decimal number is read as its
    mathematical value, and as an infinity from [DBL_OVERFLOW] on. *)

Module PyParse.

Local Open Scope Z_scope.

(** The whitespace of Unicode between 127 and 255. *)
Definition latin1_space (c : ascii) : bool :=
  let n := nat_of_ascii c in
  (Nat.eqb n 133 || Nat.eqb n 160)%bool.

Definition is_ascii_char (ch : pychar) : bool :=
  match ch with
  | Chr c => Nat.ltb (nat_of_ascii c) 128
  | _ => false
  end.

Definition digit_char (d : udigit) : ascii :=
  match d with
  | D0 => "0" | D1 => "1" | D2 => "2" | D3 => "3" | D4 => "4"
  | D5 => "5" | D6 => "6" | D7 => "7" | D8 => "8" | D9 => "9"
  end%char.

(** The rewriting of a [str] that is not ASCII. *)
Fixpoint transform (s : pystr) : list ascii :=
  match s with
  | [] => []
  | Chr c :: s' =>
      if Nat.ltb (nat_of_ascii c) 127 then c :: transform s'
      else if latin1_space c then " "%char :: transform s'
      else ["?"%char]
  | USpace :: s' => " "%char :: transform s'
  | UDigit d :: s' => digit_char d :: transform s'
  | UOther :: s' => ["?"%char]
  end.

(** The ASCII text [float()] reads: the [str] itself when it is ASCII,
    else its rewriting. *)
Definition to_ascii (s : pystr) : list ascii :=
  if forallb is_ascii_char s
  then map (fun ch => match ch with Chr c => c | _ => "?"%char end) s
  else transform s.

Definition is_space (c : ascii) : bool :=
  let n := nat_of_ascii c in
  (Nat.eqb n 32 || (Nat.leb 9 n && Nat.leb n 13))%bool.

Definition digit_of (c : ascii) : option Z :=
  let n := nat_of_ascii c in
  if (Nat.leb 48 n && Nat.leb n 57)%bool
  then Some (Z.of_nat (n - 48)) else None.

Definition is_digit (c : ascii) : bool :=
  match digit_of c with Some _ => true | None => false end.

(** ASCII lower case of a letter; other characters unchanged. *)
Definition lower (c : ascii) : ascii :=
  let n := nat_of_ascii c in
  if (Nat.leb 65 n && Nat.leb n 90)%bool
  then ascii_of_nat (n + 32) else c.

Fixpoint lstrip (l : list ascii) : list ascii :=
  match l with
  | c :: l' => if is_space c then lstrip l' else l
  | [] => []
  end.

Definition strip (l : list ascii) : list ascii :=
  rev (lstrip (rev (lstrip l))).

(** An underscore must stand between two digits; the result is the text
    without its underscores. [prev] is the character before [l]. *)
Fixpoint drop_underscores (prev : option ascii) (l : list ascii)
  : option (list ascii) :=
  let prev_digit :=
    match prev with Some p => is_digit p | None => false end in
  match l with
  | [] =>
      match prev with
      | Some "_"%char => None
      | _ => Some []
      end
  | "_"%char :: l' =>
      if prev_digit then drop_underscores (Some "_"%char) l' else None
  | c :: l' =>
      match prev with
      | Some "_"%char =>
          if is_digit c
          then option_map (cons c) (drop_underscores (Some c) l')
          else None
      | _ => option_map (cons c) (drop_underscores (Some c) l')
      end
  end.

(** The leading digits of [l]: their value on top of [acc], how many
    there are, and the rest of the text. *)
Fixpoint take_digits (l : list ascii) (acc : Z) (cnt : nat)
  : Z * nat * list ascii :=
  match l with
  | c :: l' =>
      match digit_of c with
      | Some d => take_digits l' (10 * acc + d) (S cnt)
      | None => (acc, cnt, l)
      end
  | [] => (acc, cnt, [])
  end.

(** An optional sign: [1] or [-1], and the rest of the text. *)
Definition take_sign (l : list ascii) : Z * list ascii :=
  match l with
  | "+"%char :: l' => (1, l')
  | "-"%char :: l' => (-1, l')
  | _ => (1, l)
  end.

(** [m * 10 ^ k] as a real number. *)
Definition dec_value (m k : Z) : R :=
  if 0 <=? k then IZR (m * 10 ^ k) else (IZR m / IZR (10 ^ (- k)))%R.

(** Whether [m * 10 ^ k], [m] not negative, is at or beyond
    [DBL_OVERFLOW]. *)
Definition dec_overflows (m k : Z) : bool :=
  if 0 <=? k then DBL_OVERFLOW_Z <=? m * 10 ^ k
  else DBL_OVERFLOW_Z * 10 ^ (- k) <=? m.

(** The float read from the decimal number [m * 10 ^ k]. *)
Definition dec_float (m k : Z) : pyfloat :=
  if dec_overflows m k then PInf else Fin (dec_value m k).

(** An unsigned decimal number, all of [l]: its digits as an integer and
    its power of ten. *)
Definition decimal (l : list ascii) : option (Z * Z) :=
  let '(i, ni, l1) := take_digits l 0 0 in
  let '(m, nf, l2) :=
    match l1 with
    | "."%char :: l1' => take_digits l1' i 0
    | _ => (i, 0%nat, l1)
    end in
  if Nat.eqb (ni + nf) 0 then None
  else
    match l2 with
    | [] => Some (m, - Z.of_nat nf)
    | c :: l3 =>
        if Ascii.eqb (lower c) "e"%char then
          let '(sg, l4) := take_sign l3 in
          match take_digits l4 0 0 with
          | (_, O, _) => None
          | (ex, _, []) => Some (m, sg * ex - Z.of_nat nf)
          | _ => None
          end
        else None
    end.

Definition special (l : list ascii) : option pyfloat :=
  let w := string_of_list_ascii (map lower l) in
  if String.eqb w "inf" then Some PInf
  else if String.eqb w "infinity" then Some PInf
  else if String.eqb w "nan" then Some NaN
  else None.

Definition number (l : list ascii) : option pyfloat :=
  let '(sg, body) := take_sign l in
  let signed (x : pyfloat) := if sg =? 1 then x else PyFloat.neg x in
  match decimal body with
  | Some (m, k) => Some (signed (dec_float m k))
  | None => option_map signed (special body)
  end.

Definition parse (s : pystr) : option pyfloat :=
  match drop_underscores None (strip (to_ascii s)) with
  | Some l => number l
  | None => None
  end.

End PyParse.

(** [float(s)]: text that is not a number raises [ValueError]. *)
Definition float (s : pystr) : result pyfloat :=
  match PyParse.parse s with
  | Some x => Ok x
  | None => Raise ValueError
  end.

(** ** The script *)

(** A line of standard output: text, or a float as [print] shows it. *)
Inductive line : Type :=
  | Text (s : string)
  | Num (x : pyfloat).

(** How a run ends: it reaches the end of the script, calls [exit()], or
    dies of an exception nobody catches. *)
Inductive ending : Type :=
  | Finished
  | Exited
  | Uncaught (e : exn).

Record run : Type := mkRun { stdout : list line; how : ending }.

Definition usage : string :=
  "Usage: python3 sez_to_ecef.py o_lat_deg o_lon_deg o_hae_km s_km e_km z_km".

(** [sys.argv[i]]; the script reads it only where the index exists. *)
Definition argv_at (argv : list pystr) (i : nat) : pystr :=
  nth i argv [].

Record args : Type := mkArgs {
  o_lat_deg : pyfloat;
  o_lon_deg : pyfloat;
  o_hae_km : pyfloat;
  s_km : pyfloat;
  e_km : pyfloat;
  z_km : pyfloat
}.

(** The six [float(sys.argv[i])] of the script, in its order. *)
Definition parse_args (argv : list pystr) : result args :=
  lat <- float (argv_at argv 1) ;;
  lon <- float (argv_at argv 2) ;;
  hae <- float (argv_at argv 3) ;;
  s <- float (argv_at argv 4) ;;
  e <- float (argv_at argv 5) ;;
  z <- float (argv_at argv 6) ;;
  Ok (mkArgs lat lon hae s e z).

(** The script after its arguments are read, up to the three values it
    prints. *)
Definition ecef_of_args (a : args) : result (pyfloat * pyfloat * pyfloat) :=
  let o_lat_rad := math.radians (o_lat_deg a) in
  let o_lon_rad := math.radians (o_lon_deg a) in
  '(obs_ecef_x_km, obs_ecef_y_km, obs_ecef_z_km) <-
    llh_to_ecef o_lat_rad o_lon_rad (o_hae_km a) ;;
  '(sez_x_km, sez_y_km, sez_z_km) <-
    sez_to_ecef o_lat_rad o_lon_rad (s_km a) (e_km a) (z_km a) ;;
  let ecef_x_km := PyFloat.add obs_ecef_x_km sez_x_km in
  let ecef_y_km := PyFloat.add obs_ecef_y_km sez_y_km in
  let ecef_z_km := PyFloat.add obs_ecef_z_km sez_z_km in
  Ok (ecef_x_km, ecef_y_km, ecef_z_km).

(** The whole script on [sys.argv].  The six variables start as [nan];
    each is assigned by [parse_args] before it is read, or the script has
    left through [exit()]; nothing is printed before the three values. *)
Definition main (argv : list pystr) : run :=
  if Nat.eqb (List.length argv) 7 then
    match a <- parse_args argv ;; ecef_of_args a with
    | Ok (x, y, z) => mkRun [Num x; Num y; Num z] Finished
    | Raise e => mkRun [] (Uncaught e)
    end
  else mkRun [Text usage] Exited.

(** * Properties *)

(** ** Arithmetic behind the helpers *)

Lemma DBL_OVERFLOW_gt_1 : 1 < DBL_OVERFLOW.
Proof.
  unfold DBL_OVERFLOW. apply IZR_lt. reflexivity.
Qed.

Lemma sqr_in_range (r : R) :
  r ^ 2 < DBL_OVERFLOW -> PyFloat.sqr (Fin r) = Ok (Fin (r ^ 2)).
Proof.
  intros Hr. unfold PyFloat.sqr.
  destruct (Rle_dec DBL_OVERFLOW (r ^ 2)) as [Hle | _]; [ | reflexivity ].
  exfalso. lra.
Qed.

Lemma sqr_out_of_range (r : R) :
  DBL_OVERFLOW <= r ^ 2 -> PyFloat.sqr (Fin r) = Raise OverflowError.
Proof.
  intros Hr. unfold PyFloat.sqr.
  destruct (Rle_dec DBL_OVERFLOW (r ^ 2)) as [_ | Hn];
    [ reflexivity | contradiction ].
Qed.

Section Denominator.

Variables e phi : R.

Lemma ecc_term_nonneg : 0 <= e ^ 2 * sin phi ^ 2.
Proof.
  apply Rmult_le_pos; apply pow2_ge_0.
Qed.

Lemma radicand_le_1 : 1 - e ^ 2 * sin phi ^ 2 <= 1.
Proof.
  pose proof ecc_term_nonneg. lra.
Qed.

Lemma sin_sqr_le_1 : sin phi ^ 2 <= 1.
Proof.
  pose proof (sin2_cos2 phi) as H. unfold Rsqr in H.
  pose proof (pow2_ge_0 (cos phi)). lra.
Qed.

Lemma sqr_sin : PyFloat.sqr (Fin (sin phi)) = Ok (Fin (sin phi ^ 2)).
Proof.
  apply sqr_in_range. pose proof sin_sqr_le_1. pose proof DBL_OVERFLOW_gt_1.
  lra.
Qed.

Hypothesis in_range : e ^ 2 < DBL_OVERFLOW.
Hypothesis below_one : e ^ 2 * sin phi ^ 2 < 1.

Lemma sqrt_radicand_pos : 0 < sqrt (1 - e ^ 2 * sin phi ^ 2).
Proof.
  apply sqrt_lt_R0. lra.
Qed.

Lemma sqrt_radicand_le_1 : sqrt (1 - e ^ 2 * sin phi ^ 2) <= 1.
Proof.
  rewrite <- sqrt_1 at 2. apply sqrt_le_1_alt, radicand_le_1.
Qed.

Lemma calc_denom_finite :
  calc_denom (Fin e) (Fin phi) = Ok (Fin (sqrt (1 - e ^ 2 * sin phi ^ 2))).
Proof.
  unfold calc_denom. rewrite (sqr_in_range e in_range). cbn [bind math.sin].
  rewrite sqr_sin. simpl.
  destruct (Rlt_dec _ _) as [Hneg | _]; [ | reflexivity ].
  exfalso. lra.
Qed.

End Denominator.

(** The real number a finite float stands for. *)
Definition value (x : pyfloat) : R :=
  match x with
  | Fin r => r
  | _ => 0
  end.

Lemma E_E_sqr_lt_1 : value E_E ^ 2 < 1.
Proof. simpl. lra. Qed.

Lemma E_E_sqr_in_range : value E_E ^ 2 < DBL_OVERFLOW.
Proof. pose proof E_E_sqr_lt_1. pose proof DBL_OVERFLOW_gt_1. lra. Qed.

Lemma sqr_E_E : PyFloat.sqr E_E = Ok (Fin (value E_E ^ 2)).
Proof. exact (sqr_in_range _ E_E_sqr_in_range). Qed.

Lemma E_E_term_lt_1 (lat : R) : value E_E ^ 2 * sin lat ^ 2 < 1.
Proof.
  pose proof (sin_sqr_le_1 lat). pose proof (pow2_ge_0 (sin lat)).
  pose proof E_E_sqr_lt_1. pose proof (pow2_ge_0 (value E_E)). nra.
Qed.

(** ** The denominator helper *)

(** A float whose square is beyond the binary64 range: 1e200. *)
Definition huge : R := IZR (10 ^ 200).

(** C4, as stated, fails: at the eccentricity 1e200 and the latitude 0 the
    product [e^2 * sin^2 phi] is 0, below 1, and [calc_denom] returns
    nothing: [ecc ** 2] raises [OverflowError]. *)
Lemma calc_denom_overflow :
  huge ^ 2 * sin 0 ^ 2 < 1
  /\ calc_denom (Fin huge) (Fin 0) = Raise OverflowError.
Proof.
  split; [ rewrite sin_0; lra | ].
  unfold calc_denom. rewrite sqr_out_of_range; [ reflexivity | ].
  unfold huge, DBL_OVERFLOW. rewrite pow_IZR.
  apply IZR_le. apply Z.leb_le. vm_compute. reflexivity.
Qed.

(** C4, amended: for an eccentricity [e] with [|e| < 1] and any latitude
    [phi], [e^2 * sin^2 phi] is below 1 and [calc_denom] returns
    [sqrt (1 - e^2 * sin^2 phi)], a real number in (0, 1]. *)
Theorem calc_denom_spec (e phi : R) :
  -1 < e < 1 ->
  e ^ 2 * sin phi ^ 2 < 1
  /\ calc_denom (Fin e) (Fin phi) = Ok (Fin (sqrt (1 - e ^ 2 * sin phi ^ 2)))
  /\ 0 < sqrt (1 - e ^ 2 * sin phi ^ 2) <= 1.
Proof.
  intros He.
  assert (He2 : e ^ 2 < 1) by nra.
  assert (Hlt : e ^ 2 * sin phi ^ 2 < 1).
  { pose proof (sin_sqr_le_1 phi). pose proof (pow2_ge_0 (sin phi)).
    pose proof (pow2_ge_0 e). nra. }
  split; [ exact Hlt | split; [ | split ] ].
  - apply calc_denom_finite; [ | exact Hlt ].
    pose proof DBL_OVERFLOW_gt_1. lra.
  - now apply sqrt_radicand_pos.
  - apply sqrt_radicand_le_1.
Qed.

Lemma calc_denom_spec_witness :
  (1 / 2) ^ 2 * sin 0 ^ 2 < 1
  /\ calc_denom (Fin (1 / 2)) (Fin 0)
     = Ok (Fin (sqrt (1 - (1 / 2) ^ 2 * sin 0 ^ 2)))
  /\ 0 < sqrt (1 - (1 / 2) ^ 2 * sin 0 ^ 2) <= 1.
Proof.
  apply (calc_denom_spec (1 / 2) 0). lra.
Defined.

Lemma calc_denom_E_E (lat : R) :
  calc_denom E_E (Fin lat)
  = Ok (Fin (sqrt (1 - value E_E ^ 2 * sin lat ^ 2))).
Proof.
  exact (calc_denom_finite _ _ E_E_sqr_in_range (E_E_term_lt_1 lat)).
Qed.

Lemma denom_E_E_pos (lat : R) :
  0 < sqrt (1 - value E_E ^ 2 * sin lat ^ 2).
Proof. exact (sqrt_radicand_pos _ _ (E_E_term_lt_1 lat)). Qed.

Lemma div_by_nonzero (a b : R) :
  b <> 0 -> PyFloat.div (Fin a) (Fin b) = Ok (Fin (a / b)).
Proof.
  intros Hb. unfold PyFloat.div.
  destruct (Req_dec_T b 0) as [Hz | _]; [ contradiction | reflexivity ].
Qed.

(** C10: with the script's eccentricity, the radicand is at least
    [1 - E_E^2 > 0] at every real latitude, so [calc_denom] raises nothing,
    its result is not zero, and the division [R_E_KM / denom] of
    [llh_to_ecef] is defined. *)
Theorem calc_denom_E_E_total (lat : R) :
  1 - value E_E ^ 2 * sin lat ^ 2 >= 1 - value E_E ^ 2
  /\ 1 - value E_E ^ 2 > 0
  /\ exists denom : R,
       calc_denom E_E (Fin lat) = Ok (Fin denom)
       /\ denom = sqrt (1 - value E_E ^ 2 * sin lat ^ 2)
       /\ 0 < denom
       /\ PyFloat.div R_E_KM (Fin denom) = Ok (Fin (value R_E_KM / denom)).
Proof.
  split; [ | split ].
  - pose proof (sin_sqr_le_1 lat). pose proof (pow2_ge_0 (value E_E)). nra.
  - pose proof E_E_sqr_lt_1. lra.
  - exists (sqrt (1 - value E_E ^ 2 * sin lat ^ 2)).
    pose proof (denom_E_E_pos lat) as Hpos.
    repeat split.
    + apply calc_denom_E_E.
    + exact Hpos.
    + apply div_by_nonzero. lra.
Qed.

(** ** The geodetic-to-ECEF converter *)

(** [N]: the radius of curvature in the prime vertical, over the reals. *)
Definition prime_vertical (phi : R) : R :=
  value R_E_KM / sqrt (1 - value E_E ^ 2 * sin phi ^ 2).

Lemma llh_to_ecef_finite (phi lam h : R) :
  llh_to_ecef (Fin phi) (Fin lam) (Fin h)
  = Ok (Fin ((prime_vertical phi + h) * cos phi * cos lam),
        Fin ((prime_vertical phi + h) * cos phi * sin lam),
        Fin ((prime_vertical phi * (1 - value E_E ^ 2) + h) * sin phi)).
Proof.
  pose proof (denom_E_E_pos phi) as Hpos.
  unfold llh_to_ecef. rewrite calc_denom_E_E, sqr_E_E. cbn [bind].
  unfold R_E_KM at 1. rewrite div_by_nonzero by lra. reflexivity.
Qed.

(** C2: for a latitude [phi], a longitude [lam] and a height [h],
    [llh_to_ecef] returns [x = (N + h) cos phi cos lam],
    [y = (N + h) cos phi sin lam], [z = (N (1 - e^2) + h) sin phi], with
    [N = R_E_KM / D], [D = sqrt (1 - e^2 sin^2 phi)] the result of
    [calc_denom] and [e] the script's eccentricity. *)
Theorem llh_to_ecef_spec (phi lam h : R) :
  exists D N : R,
    calc_denom E_E (Fin phi) = Ok (Fin D)
    /\ D = sqrt (1 - value E_E ^ 2 * sin phi ^ 2)
    /\ N = value R_E_KM / D
    /\ llh_to_ecef (Fin phi) (Fin lam) (Fin h)
       = Ok (Fin ((N + h) * cos phi * cos lam),
             Fin ((N + h) * cos phi * sin lam),
             Fin ((N * (1 - value E_E ^ 2) + h) * sin phi)).
Proof.
  exists (sqrt (1 - value E_E ^ 2 * sin phi ^ 2)), (prime_vertical phi).
  split; [ apply calc_denom_E_E | ].
  split; [ reflexivity | ].
  split; [ reflexivity | ].
  apply llh_to_ecef_finite.
Qed.

(** ** The SEZ-to-ECEF rotator *)

Lemma sez_to_ecef_finite (phi lam s e z : R) :
  sez_to_ecef (Fin phi) (Fin lam) (Fin s) (Fin e) (Fin z)
  = Ok (Fin (s * sin phi * cos lam - e * sin lam + z * cos phi * cos lam),
        Fin (s * sin phi * sin lam + e * cos lam + z * cos phi * sin lam),
        Fin (- s * cos phi + z * sin phi)).
Proof.
  unfold sez_to_ecef; simpl. do 2 f_equal; [ f_equal | ]; f_equal; ring.
Qed.

(** C3: for an observer latitude [phi], longitude [lam] and an SEZ offset
    [(s, e, z)], [sez_to_ecef] returns
    [s sin phi cos lam - e sin lam + z cos phi cos lam],
    [s sin phi sin lam + e cos lam + z cos phi sin lam],
    [- s cos phi + z sin phi]; there is no translation: the zero offset goes
    to the zero vector. *)
Theorem sez_to_ecef_spec (phi lam s e z : R) :
  sez_to_ecef (Fin phi) (Fin lam) (Fin s) (Fin e) (Fin z)
  = Ok (Fin (s * sin phi * cos lam - e * sin lam + z * cos phi * cos lam),
        Fin (s * sin phi * sin lam + e * cos lam + z * cos phi * sin lam),
        Fin (- s * cos phi + z * sin phi))
  /\ sez_to_ecef (Fin phi) (Fin lam) (Fin 0) (Fin 0) (Fin 0)
     = Ok (Fin 0, Fin 0, Fin 0).
Proof.
  split; [ apply sez_to_ecef_finite | ].
  rewrite sez_to_ecef_finite. do 2 f_equal; [ f_equal | ]; f_equal; ring.
Qed.

(** The Euclidean norm of a vector of reals. *)
Definition norm (x y z : R) : R := sqrt (x ^ 2 + y ^ 2 + z ^ 2).

(** C7: at any observer latitude and longitude the rotation keeps the
    Euclidean norm of every vector, over the real numbers. *)
Theorem sez_to_ecef_norm (phi lam s e z : R) :
  exists x y w : R,
    sez_to_ecef (Fin phi) (Fin lam) (Fin s) (Fin e) (Fin z)
    = Ok (Fin x, Fin y, Fin w)
    /\ norm x y w = norm s e z.
Proof.
  pose proof (sez_to_ecef_finite phi lam s e z) as Heq.
  do 3 eexists. split; [ exact Heq | ].
  unfold norm. f_equal.
  pose proof (sin2_cos2 phi) as Hp. pose proof (sin2_cos2 lam) as Hl.
  unfold Rsqr in Hp, Hl.
  assert (Hp' : cos phi ^ 2 = 1 - sin phi ^ 2) by lra.
  assert (Hl' : cos lam ^ 2 = 1 - sin lam ^ 2) by lra.
  ring_simplify. rewrite ?Hp', ?Hl'. ring.
Qed.

(** ** Floats that are not infinite *)

Lemma not_inf_cases (x : pyfloat) :
  PyFloat.is_inf x = false -> (exists r, x = Fin r) \/ x = NaN.
Proof.
  destruct x; simpl; intros H; try discriminate; eauto.
Qed.

Lemma inf_times_pos (r : R) : 0 < r -> PyFloat.inf_times r = PInf.
Proof.
  intros Hr. unfold PyFloat.inf_times.
  destruct (Rlt_dec 0 r); [ reflexivity | contradiction ].
Qed.

Lemma radians_is_inf (x : pyfloat) :
  PyFloat.is_inf (math.radians x) = PyFloat.is_inf x.
Proof.
  assert (Hc : 0 < PI / 180) by (pose proof PI_RGT_0; lra).
  destruct x; unfold math.radians; simpl; rewrite ?inf_times_pos by exact Hc;
    reflexivity.
Qed.

Lemma sin_of_inf (x : pyfloat) :
  PyFloat.is_inf x = true -> math.sin x = Raise ValueError.
Proof. destruct x; simpl; intros H; try discriminate; reflexivity. Qed.

Lemma cos_of_inf (x : pyfloat) :
  PyFloat.is_inf x = true -> math.cos x = Raise ValueError.
Proof. destruct x; simpl; intros H; try discriminate; reflexivity. Qed.

Lemma sin_not_inf (x : pyfloat) :
  PyFloat.is_inf x = false -> exists v, math.sin x = Ok v.
Proof. destruct x; simpl; intros H; try discriminate; eauto. Qed.

Lemma cos_not_inf (x : pyfloat) :
  PyFloat.is_inf x = false -> exists v, math.cos x = Ok v.
Proof. destruct x; simpl; intros H; try discriminate; eauto. Qed.

(** [calc_denom] and the division by its result, at a latitude that is
    not infinite. *)
Lemma prime_vertical_not_inf (lat : pyfloat) :
  PyFloat.is_inf lat = false ->
  exists denom N,
    calc_denom E_E lat = Ok denom /\ PyFloat.div R_E_KM denom = Ok N.
Proof.
  intros H. destruct (not_inf_cases lat H) as [[r ->] | ->].
  - pose proof (denom_E_E_pos r) as Hpos.
    do 2 eexists. split; [ apply calc_denom_E_E | ].
    unfold R_E_KM. apply div_by_nonzero. lra.
  - exists NaN, NaN. split; [ | reflexivity ].
    unfold calc_denom. rewrite sqr_E_E. reflexivity.
Qed.

Lemma calc_denom_of_inf (lat : pyfloat) :
  PyFloat.is_inf lat = true -> calc_denom E_E lat = Raise ValueError.
Proof.
  intros H. unfold calc_denom. now rewrite sqr_E_E, (sin_of_inf lat H).
Qed.

(** ** When the two conversions return *)

Lemma llh_to_ecef_not_inf (lat lon h : pyfloat) :
  PyFloat.is_inf lat = false -> PyFloat.is_inf lon = false ->
  exists x y z, llh_to_ecef lat lon h = Ok (x, y, z).
Proof.
  intros Hlat Hlon.
  destruct (prime_vertical_not_inf lat Hlat) as (d & N & Hd & HN).
  destruct (cos_not_inf lat Hlat) as [c1 Hc1].
  destruct (sin_not_inf lat Hlat) as [s1 Hs1].
  destruct (cos_not_inf lon Hlon) as [c2 Hc2].
  destruct (sin_not_inf lon Hlon) as [s2 Hs2].
  unfold llh_to_ecef. rewrite Hd; cbn [bind]. rewrite HN; cbn [bind].
  rewrite Hc1, Hc2, Hs1, Hs2, sqr_E_E; cbn [bind]. eauto.
Qed.

Lemma llh_to_ecef_inf_lat (lat lon h : pyfloat) :
  PyFloat.is_inf lat = true -> llh_to_ecef lat lon h = Raise ValueError.
Proof.
  intros H. unfold llh_to_ecef. now rewrite (calc_denom_of_inf lat H).
Qed.

Lemma llh_to_ecef_inf_lon (lat lon h : pyfloat) :
  PyFloat.is_inf lat = false -> PyFloat.is_inf lon = true ->
  llh_to_ecef lat lon h = Raise ValueError.
Proof.
  intros Hlat Hlon.
  destruct (prime_vertical_not_inf lat Hlat) as (d & N & Hd & HN).
  destruct (cos_not_inf lat Hlat) as [c1 Hc1].
  unfold llh_to_ecef. rewrite Hd; cbn [bind]. rewrite HN; cbn [bind].
  rewrite Hc1, (cos_of_inf lon Hlon); reflexivity.
Qed.

Lemma sez_to_ecef_not_inf (lat lon s e z : pyfloat) :
  PyFloat.is_inf lat = false -> PyFloat.is_inf lon = false ->
  exists x y w, sez_to_ecef lat lon s e z = Ok (x, y, w).
Proof.
  intros Hlat Hlon.
  destruct (cos_not_inf lat Hlat) as [c1 Hc1].
  destruct (sin_not_inf lat Hlat) as [s1 Hs1].
  destruct (cos_not_inf lon Hlon) as [c2 Hc2].
  destruct (sin_not_inf lon Hlon) as [s2 Hs2].
  unfold sez_to_ecef. rewrite Hc1, Hs1, Hc2, Hs2; cbn [bind]. eauto.
Qed.

(** The third component of either conversion does not read the
    longitude. *)
Lemma llh_to_ecef_z_lon (lat lon lon' h : pyfloat) (x y z x' y' z' : pyfloat) :
  llh_to_ecef lat lon h = Ok (x, y, z) ->
  llh_to_ecef lat lon' h = Ok (x', y', z') ->
  z = z'.
Proof.
  unfold llh_to_ecef. rewrite sqr_E_E.
  destruct (calc_denom E_E lat) as [d | ]; cbn [bind]; [ | discriminate ].
  destruct (PyFloat.div R_E_KM d) as [N | ]; cbn [bind]; [ | discriminate ].
  destruct (math.cos lat) as [c1 | ]; cbn [bind]; [ | discriminate ].
  destruct (math.sin lat) as [s1 | ]; cbn [bind];
    destruct (math.cos lon), (math.sin lon), (math.cos lon'), (math.sin lon');
    cbn [bind]; intros H1 H2; try discriminate.
  congruence.
Qed.

Lemma sez_to_ecef_z_lon (lat lon lon' s e z : pyfloat)
      (x y w x' y' w' : pyfloat) :
  sez_to_ecef lat lon s e z = Ok (x, y, w) ->
  sez_to_ecef lat lon' s e z = Ok (x', y', w') ->
  w = w'.
Proof.
  unfold sez_to_ecef.
  destruct (math.cos lat) as [c1 | ]; cbn [bind]; [ | discriminate ].
  destruct (math.sin lat) as [s1 | ]; cbn [bind]; [ | discriminate ].
  destruct (math.cos lon), (math.sin lon), (math.cos lon'), (math.sin lon');
    cbn [bind]; intros H1 H2; try discriminate.
  congruence.
Qed.

(** ** Runs of the script *)

(** The script after a successful [parse_args]. *)
Lemma main_parsed (argv : list pystr) (a : args) :
  List.length argv = 7%nat ->
  parse_args argv = Ok a ->
  main argv =
    match ecef_of_args a with
    | Ok (x, y, z) => mkRun [Num x; Num y; Num z] Finished
    | Raise e => mkRun [] (Uncaught e)
    end.
Proof.
  intros Hlen Hargs. unfold main.
  rewrite Hlen, Hargs. reflexivity.
Qed.

(** Every argument of a successful [parse_args] is one [float()] accepts. *)
Lemma parse_args_ok (argv : list pystr) (a : args) :
  parse_args argv = Ok a ->
  forall i, (1 <= i <= 6)%nat -> exists x, float (argv_at argv i) = Ok x.
Proof.
  unfold parse_args.
  destruct (float (argv_at argv 1)) eqn:E1; cbn [bind]; [ | discriminate ].
  destruct (float (argv_at argv 2)) eqn:E2; cbn [bind]; [ | discriminate ].
  destruct (float (argv_at argv 3)) eqn:E3; cbn [bind]; [ | discriminate ].
  destruct (float (argv_at argv 4)) eqn:E4; cbn [bind]; [ | discriminate ].
  destruct (float (argv_at argv 5)) eqn:E5; cbn [bind]; [ | discriminate ].
  destruct (float (argv_at argv 6)) eqn:E6; cbn [bind]; [ | discriminate ].
  intros _ i Hi.
  assert (Hcases : (i = 1 \/ i = 2 \/ i = 3 \/ i = 4 \/ i = 5 \/ i = 6)%nat)
    by lia.
  destruct Hcases as [-> | [-> | [-> | [-> | [-> | ->]]]]]; eauto.
Qed.

(** [float()] raises nothing but [ValueError], and so does [parse_args]. *)
Lemma float_raises (s : pystr) (e : exn) :
  float s = Raise e -> e = ValueError.
Proof.
  unfold float. destruct (PyParse.parse s); congruence.
Qed.

Lemma parse_args_raises (argv : list pystr) :
  (exists i, (1 <= i <= 6)%nat /\ float (argv_at argv i) = Raise ValueError) ->
  parse_args argv = Raise ValueError.
Proof.
  intros (i & Hi & Hbad).
  destruct (parse_args argv) as [a | e] eqn:Hp.
  - destruct (parse_args_ok argv a Hp i Hi) as [x Hx]. congruence.
  - f_equal. revert Hp. unfold parse_args.
    repeat match goal with
    | |- context [ float ?s ] =>
        let E := fresh "E" in
        (destruct (float s) eqn:E; cbn [bind];
         [ | apply float_raises in E; congruence ])
    end.
    discriminate.
Qed.

(** The values the script prints on finite arguments, over the reals. *)
Lemma ecef_of_args_finite (lat lon h s e z : R) :
  let phi := lat * (PI / 180) in
  let lam := lon * (PI / 180) in
  ecef_of_args (mkArgs (Fin lat) (Fin lon) (Fin h) (Fin s) (Fin e) (Fin z))
  = Ok (Fin ((prime_vertical phi + h) * cos phi * cos lam
             + (s * sin phi * cos lam - e * sin lam + z * cos phi * cos lam)),
        Fin ((prime_vertical phi + h) * cos phi * sin lam
             + (s * sin phi * sin lam + e * cos lam + z * cos phi * sin lam)),
        Fin ((prime_vertical phi * (1 - value E_E ^ 2) + h) * sin phi
             + (- s * cos phi + z * sin phi))).
Proof.
  intros phi lam. unfold ecef_of_args. cbn [o_lat_deg o_lon_deg o_hae_km s_km e_km z_km].
  change (math.radians (Fin lat)) with (Fin phi).
  change (math.radians (Fin lon)) with (Fin lam).
  rewrite llh_to_ecef_finite, sez_to_ecef_finite. reflexivity.
Qed.

(** What an infinite latitude or longitude does to the script. *)
Lemma ecef_of_args_inf (a : args) :
  (PyFloat.is_inf (o_lat_deg a) || PyFloat.is_inf (o_lon_deg a))%bool = true ->
  ecef_of_args a = Raise ValueError.
Proof.
  intros H. unfold ecef_of_args.
  destruct (PyFloat.is_inf (o_lat_deg a)) eqn:Hlat.
  - rewrite llh_to_ecef_inf_lat by now rewrite radians_is_inf.
    reflexivity.
  - simpl in H.
    rewrite llh_to_ecef_inf_lon by now rewrite radians_is_inf.
    reflexivity.
Qed.

(** ** Command lines used below *)

Definition argv_zero : list pystr :=
  map str ["sez_to_ecef.py"; "0"; "0"; "0"; "0"; "0"; "0"]%string.

Definition argv_inf_lat : list pystr :=
  map str ["sez_to_ecef.py"; "inf"; "0"; "0"; "0"; "0"; "0"]%string.

Definition argv_inf_lon : list pystr :=
  map str ["sez_to_ecef.py"; "0"; "inf"; "0"; "0"; "0"; "0"]%string.

Definition argv_lon_90 : list pystr :=
  map str ["sez_to_ecef.py"; "0"; "90"; "0"; "0"; "0"; "0"]%string.

Definition argv_word : list pystr :=
  map str ["sez_to_ecef.py"; "0"; "0"; "0"; "1.5"; "east"; "0"]%string.

(** A latitude beyond the binary64 range. *)
Definition argv_lat_1e400 : list pystr :=
  map str ["sez_to_ecef.py"; "1e400"; "0"; "0"; "0"; "0"; "0"]%string.

(** A latitude of two decimal digits that are not ASCII, 4 and 5. *)
Definition argv_unicode_lat : list pystr :=
  str "sez_to_ecef.py" :: [UDigit D4; UDigit D5]
    :: map str ["0"; "0"; "0"; "0"; "0"]%string.

Definition argv_short : list pystr :=
  map str ["sez_to_ecef.py"; "0"; "0"; "0"]%string.

Definition args_zero : args :=
  mkArgs (Fin 0) (Fin 0) (Fin 0) (Fin 0) (Fin 0) (Fin 0).

Lemma parse_argv_zero : parse_args argv_zero = Ok args_zero.
Proof. reflexivity. Qed.

Lemma parse_argv_inf_lat :
  parse_args argv_inf_lat
  = Ok (mkArgs PInf (Fin 0) (Fin 0) (Fin 0) (Fin 0) (Fin 0)).
Proof. reflexivity. Qed.

Lemma parse_argv_inf_lon :
  parse_args argv_inf_lon
  = Ok (mkArgs (Fin 0) PInf (Fin 0) (Fin 0) (Fin 0) (Fin 0)).
Proof. reflexivity. Qed.

Lemma main_argv_inf_lat : main argv_inf_lat = mkRun [] (Uncaught ValueError).
Proof.
  rewrite (main_parsed argv_inf_lat _ eq_refl parse_argv_inf_lat).
  now rewrite ecef_of_args_inf.
Qed.

Lemma main_argv_inf_lon : main argv_inf_lon = mkRun [] (Uncaught ValueError).
Proof.
  rewrite (main_parsed argv_inf_lon _ eq_refl parse_argv_inf_lon).
  now rewrite ecef_of_args_inf.
Qed.

(** ** The script on six numbers *)

(** The run the specification describes for arguments [a]: the observer's
    position from [llh_to_ecef], the offset from [sez_to_ecef], both at the
    angles in radians, and their sum printed on three lines. *)
Definition prints_ecef (argv : list pystr) (a : args) : Prop :=
  let o_lat_rad := math.radians (o_lat_deg a) in
  let o_lon_rad := math.radians (o_lon_deg a) in
  exists ox oy oz rx ry rz : pyfloat,
    llh_to_ecef o_lat_rad o_lon_rad (o_hae_km a) = Ok (ox, oy, oz)
    /\ sez_to_ecef o_lat_rad o_lon_rad (s_km a) (e_km a) (z_km a)
       = Ok (rx, ry, rz)
    /\ main argv
       = mkRun [Num (PyFloat.add ox rx);
                Num (PyFloat.add oy ry);
                Num (PyFloat.add oz rz)] Finished.

(** C1, as stated, fails: [inf] is a number for [float()], and with it as
    the latitude the script prints nothing. *)
Lemma prints_ecef_inf_lat :
  List.length argv_inf_lat = 7%nat
  /\ parse_args argv_inf_lat
     = Ok (mkArgs PInf (Fin 0) (Fin 0) (Fin 0) (Fin 0) (Fin 0))
  /\ main argv_inf_lat = mkRun [] (Uncaught ValueError)
  /\ ~ prints_ecef argv_inf_lat
         (mkArgs PInf (Fin 0) (Fin 0) (Fin 0) (Fin 0) (Fin 0)).
Proof.
  split; [ reflexivity | ].
  split; [ exact parse_argv_inf_lat | ].
  split; [ exact main_argv_inf_lat | ].
  intros (ox & oy & oz & rx & ry & rz & _ & _ & Hmain).
  rewrite main_argv_inf_lat in Hmain. discriminate.
Qed.

(** C1, amended: on the script's name and six arguments that [float()]
    accepts, the latitude and the longitude not read as an infinity
    ([inf], or a decimal beyond the binary64 range), the script turns both
    angles to radians, takes the observer's position from
    [llh_to_ecef] and the offset from [sez_to_ecef], adds them component by
    component and prints the three sums, x, y, z, one per line. *)
Theorem main_prints_ecef (argv : list pystr) (a : args) :
  List.length argv = 7%nat ->
  parse_args argv = Ok a ->
  PyFloat.is_inf (o_lat_deg a) = false ->
  PyFloat.is_inf (o_lon_deg a) = false ->
  prints_ecef argv a.
Proof.
  intros Hlen Hargs Hlat Hlon.
  rewrite <- radians_is_inf in Hlat, Hlon.
  destruct (llh_to_ecef_not_inf _ _ (o_hae_km a) Hlat Hlon)
    as (ox & oy & oz & Hllh).
  destruct (sez_to_ecef_not_inf _ _ (s_km a) (e_km a) (z_km a) Hlat Hlon)
    as (rx & ry & rz & Hsez).
  exists ox, oy, oz, rx, ry, rz.
  split; [ exact Hllh | split; [ exact Hsez | ] ].
  rewrite (main_parsed argv a Hlen Hargs).
  unfold ecef_of_args. rewrite Hllh, Hsez. reflexivity.
Qed.

Lemma main_prints_ecef_witness : prints_ecef argv_zero args_zero.
Proof.
  apply main_prints_ecef; reflexivity.
Defined.

(** C8: at latitude 0, longitude 0, height 0 and the SEZ vector (0, 0, 0)
    the script prints the equatorial radius 6378.137, then 0, then 0. *)
Theorem main_at_origin (argv : list pystr) :
  List.length argv = 7%nat ->
  parse_args argv = Ok args_zero ->
  main argv = mkRun [Num (Fin 6378.137); Num (Fin 0); Num (Fin 0)] Finished.
Proof.
  intros Hlen Hargs. rewrite (main_parsed argv _ Hlen Hargs).
  pose proof (ecef_of_args_finite 0 0 0 0 0 0) as H. cbv zeta in H.
  unfold args_zero. rewrite H. clear H.
  assert (H0 : 0 * (PI / 180) = 0) by ring. rewrite H0.
  assert (HN : prime_vertical 0 = 6378.137).
  { unfold prime_vertical. rewrite sin_0.
    replace (1 - value E_E ^ 2 * 0 ^ 2) with 1 by ring.
    rewrite sqrt_1. simpl. field. }
  rewrite HN, sin_0, cos_0.
  match goal with
  | |- mkRun [Num (Fin ?x); Num (Fin ?y); Num (Fin ?z)] _ = _ =>
      replace x with 6378.137 by lra;
      replace y with 0 by lra;
      replace z with 0 by lra
  end.
  reflexivity.
Qed.

Lemma main_at_origin_witness :
  main argv_zero
  = mkRun [Num (Fin 6378.137); Num (Fin 0); Num (Fin 0)] Finished.
Proof.
  apply main_at_origin; reflexivity.
Defined.

(** ** The script on a wrong number of arguments *)

(** C5: when the arguments after the script's name are not six, the script
    prints the usage line and exits: nothing is parsed or computed, and no
    number is printed. *)
Theorem main_usage (argv : list pystr) :
  List.length (tl argv) <> 6%nat ->
  main argv = mkRun [Text usage] Exited
  /\ forall x, ~ In (Num x) (stdout (main argv)).
Proof.
  intros Hlen.
  assert (Hmain : main argv = mkRun [Text usage] Exited).
  { unfold main.
    destruct (Nat.eqb_spec (List.length argv) 7) as [H7 | _];
      [ | reflexivity ].
    destruct argv as [ | prog rest ]; simpl in *; [ discriminate | ].
    exfalso. apply Hlen. congruence. }
  split; [ exact Hmain | ].
  rewrite Hmain. simpl. intros x [Hx | []]. discriminate.
Qed.

Lemma main_usage_witness :
  main argv_short = mkRun [Text usage] Exited
  /\ forall x, ~ In (Num x) (stdout (main argv_short)).
Proof.
  apply main_usage. simpl. lia.
Defined.

(** ** Errors of a run on six arguments *)

(** Argument [i] of the command line is not a number for [float()]. *)
Definition not_numeric (argv : list pystr) (i : nat) : Prop :=
  (1 <= i <= 6)%nat /\ float (argv_at argv i) = Raise ValueError.

(** The run dies of an exception only where an argument is not a number. *)
Definition only_error_is_not_numeric (argv : list pystr) : Prop :=
  forall e, how (main argv) = Uncaught e -> exists i, not_numeric argv i.

(** C6, as stated, fails: with [inf] as the longitude every argument is a
    number, and the run still dies of a [ValueError], raised by
    [math.cos]. *)
Lemma not_only_error_inf_lon :
  List.length argv_inf_lon = 7%nat
  /\ ~ only_error_is_not_numeric argv_inf_lon.
Proof.
  split; [ reflexivity | ].
  intros Hclaim.
  destruct (Hclaim ValueError) as (i & Hi & Hbad).
  - now rewrite main_argv_inf_lon.
  - destruct (parse_args_ok _ _ parse_argv_inf_lon i Hi) as [x Hx].
    congruence.
Qed.

(** C6, amended: on six arguments of which one is not a number for
    [float()], the run dies of the [ValueError] of [float()], uncaught, and
    prints nothing.  When the six are numbers, the run dies, of the
    [ValueError] of [math.sin] or [math.cos], exactly when the latitude or
    the longitude is read as an infinity ([inf], or a decimal beyond the
    binary64 range); otherwise it reaches its end. *)
Theorem main_errors (argv : list pystr) :
  List.length argv = 7%nat ->
  ((exists i, not_numeric argv i) ->
   main argv = mkRun [] (Uncaught ValueError))
  /\ (forall a, parse_args argv = Ok a ->
      if (PyFloat.is_inf (o_lat_deg a) || PyFloat.is_inf (o_lon_deg a))%bool
      then main argv = mkRun [] (Uncaught ValueError)
      else how (main argv) = Finished).
Proof.
  intros Hlen. split.
  - intros Hbad. unfold main. rewrite Hlen. cbn [Nat.eqb].
    now rewrite (parse_args_raises argv Hbad).
  - intros a Hargs. rewrite (main_parsed argv a Hlen Hargs).
    destruct (PyFloat.is_inf (o_lat_deg a) || PyFloat.is_inf (o_lon_deg a))%bool
      eqn:Hinf.
    + now rewrite (ecef_of_args_inf a Hinf).
    + apply orb_false_elim in Hinf. destruct Hinf as [Hlat Hlon].
      rewrite <- radians_is_inf in Hlat, Hlon.
      destruct (llh_to_ecef_not_inf _ _ (o_hae_km a) Hlat Hlon)
        as (ox & oy & oz & Hllh).
      destruct (sez_to_ecef_not_inf _ _ (s_km a) (e_km a) (z_km a) Hlat Hlon)
        as (rx & ry & rz & Hsez).
      unfold ecef_of_args. rewrite Hllh, Hsez. reflexivity.
Qed.

Lemma parse_argv_lat_1e400 :
  parse_args argv_lat_1e400
  = Ok (mkArgs PInf (Fin 0) (Fin 0) (Fin 0) (Fin 0) (Fin 0)).
Proof. reflexivity. Qed.

Lemma parse_argv_unicode_lat :
  parse_args argv_unicode_lat
  = Ok (mkArgs (Fin 45) (Fin 0) (Fin 0) (Fin 0) (Fin 0) (Fin 0)).
Proof. reflexivity. Qed.

Lemma main_errors_witness :
  main argv_word = mkRun [] (Uncaught ValueError)
  /\ how (main argv_zero) = Finished
  /\ main argv_lat_1e400 = mkRun [] (Uncaught ValueError)
  /\ how (main argv_unicode_lat) = Finished.
Proof.
  split; [ | split; [ | split ] ].
  - apply (proj1 (main_errors argv_word eq_refl)).
    exists 5%nat. split; [ lia | reflexivity ].
  - exact (proj2 (main_errors argv_zero eq_refl) args_zero parse_argv_zero).
  - exact (proj2 (main_errors argv_lat_1e400 eq_refl) _ parse_argv_lat_1e400).
  - exact (proj2 (main_errors argv_unicode_lat eq_refl) _
             parse_argv_unicode_lat).
Defined.

(** ** The third line and the longitude *)

(** Two argument records that agree on all but the longitude. *)
Definition same_but_lon (a b : args) : Prop :=
  o_lat_deg a = o_lat_deg b
  /\ o_hae_km a = o_hae_km b
  /\ s_km a = s_km b
  /\ e_km a = e_km b
  /\ z_km a = z_km b.

(** The third line of a run's output, if there is one. *)
Definition third_line (r : run) : option line := nth_error (stdout r) 2.

(** The run at the origin prints a third line. *)
Lemma main_prints_origin :
  exists z, third_line (main argv_zero) = Some (Num z).
Proof.
  rewrite (main_parsed argv_zero _ eq_refl parse_argv_zero).
  pose proof (ecef_of_args_finite 0 0 0 0 0 0) as H. cbv zeta in H.
  unfold args_zero. rewrite H. unfold third_line. simpl. eauto.
Qed.

(** C9, as stated, fails: two command lines that differ in the longitude
    only, [0] and [inf]; the first run prints a third line, the second
    prints nothing. *)
Lemma third_line_inf_lon :
  List.length argv_zero = 7%nat
  /\ List.length argv_inf_lon = 7%nat
  /\ parse_args argv_zero = Ok args_zero
  /\ parse_args argv_inf_lon
     = Ok (mkArgs (Fin 0) PInf (Fin 0) (Fin 0) (Fin 0) (Fin 0))
  /\ same_but_lon args_zero
       (mkArgs (Fin 0) PInf (Fin 0) (Fin 0) (Fin 0) (Fin 0))
  /\ third_line (main argv_zero) <> third_line (main argv_inf_lon).
Proof.
  do 4 (split; [ reflexivity | ]).
  split; [ repeat split | ].
  rewrite main_argv_inf_lon.
  destruct (main_prints_origin) as (z & Hz).
  rewrite Hz. discriminate.
Qed.

(** C9, amended: two runs on six numbers that differ in the longitude
    only, neither longitude read as an infinity ([inf], or a decimal
    beyond the binary64 range), have the same third line; when the
    latitude is not infinite either, both runs print it. *)
Theorem third_line_lon (argv1 argv2 : list pystr) (a1 a2 : args) :
  List.length argv1 = 7%nat ->
  List.length argv2 = 7%nat ->
  parse_args argv1 = Ok a1 ->
  parse_args argv2 = Ok a2 ->
  same_but_lon a1 a2 ->
  PyFloat.is_inf (o_lon_deg a1) = false ->
  PyFloat.is_inf (o_lon_deg a2) = false ->
  third_line (main argv1) = third_line (main argv2)
  /\ (PyFloat.is_inf (o_lat_deg a1) = false ->
      exists z, third_line (main argv1) = Some (Num z)).
Proof.
  intros Hlen1 Hlen2 Hargs1 Hargs2 Hsame Hlon1 Hlon2.
  rewrite (main_parsed argv1 a1 Hlen1 Hargs1).
  rewrite (main_parsed argv2 a2 Hlen2 Hargs2).
  destruct a1 as [lat lon1 h s e z], a2 as [lat2 lon2 h2 s2 e2 z2].
  destruct Hsame as (Hlat & Hh & Hs & He & Hz). simpl in *. subst.
  destruct (PyFloat.is_inf lat2) eqn:Hlat.
  - split; [ | discriminate ].
    rewrite !ecef_of_args_inf by (simpl; now rewrite Hlat).
    reflexivity.
  - rewrite <- radians_is_inf in Hlat, Hlon1, Hlon2.
    destruct (llh_to_ecef_not_inf _ _ h2 Hlat Hlon1) as (x1 & y1 & z1 & Hl1).
    destruct (llh_to_ecef_not_inf _ _ h2 Hlat Hlon2) as (x2 & y2 & z2' & Hl2).
    destruct (sez_to_ecef_not_inf _ _ s2 e2 z2 Hlat Hlon1)
      as (u1 & v1 & w1 & Hr1).
    destruct (sez_to_ecef_not_inf _ _ s2 e2 z2 Hlat Hlon2)
      as (u2 & v2 & w2 & Hr2).
    pose proof (llh_to_ecef_z_lon _ _ _ _ _ _ _ _ _ _ Hl1 Hl2) as Ez.
    pose proof (sez_to_ecef_z_lon _ _ _ _ _ _ _ _ _ _ _ _ Hr1 Hr2) as Ew.
    unfold ecef_of_args; simpl. rewrite Hl1, Hl2, Hr1, Hr2. simpl.
    subst. unfold third_line. simpl. split; [ reflexivity | eauto ].
Qed.

Lemma third_line_lon_witness :
  third_line (main argv_zero) = third_line (main argv_lon_90)
  /\ (PyFloat.is_inf (o_lat_deg args_zero) = false ->
      exists z, third_line (main argv_zero) = Some (Num z)).
Proof.
  apply (third_line_lon argv_zero argv_lon_90 args_zero
           (mkArgs (Fin 0) (Fin 90) (Fin 0) (Fin 0) (Fin 0) (Fin 0)));
    try reflexivity.
  repeat split.
Defined.

(** * Further properties of the conversions *)

Lemma ok_triple (a b c a' b' c' : R) :
  a = a' -> b = b' -> c = c' ->
  @Ok (pyfloat * pyfloat * pyfloat) (Fin a, Fin b, Fin c)
  = Ok (Fin a', Fin b', Fin c').
Proof. intros -> -> ->. reflexivity. Qed.

Lemma sin2_as_cos2 (x : R) : sin x ^ 2 = 1 - cos x ^ 2.
Proof. pose proof (sin2_cos2 x) as H. unfold Rsqr in H. lra. Qed.

(** ** The rotation as a linear map *)

(** X1: at a fixed latitude and longitude [sez_to_ecef] is linear in the
    SEZ vector: the image of [a u + b v] is [a] times the image of [u] plus
    [b] times the image of [v]. *)
Theorem sez_to_ecef_linear (phi lam a b s1 e1 z1 s2 e2 z2 : R) :
  exists x1 y1 w1 x2 y2 w2 : R,
    sez_to_ecef (Fin phi) (Fin lam) (Fin s1) (Fin e1) (Fin z1)
    = Ok (Fin x1, Fin y1, Fin w1)
    /\ sez_to_ecef (Fin phi) (Fin lam) (Fin s2) (Fin e2) (Fin z2)
       = Ok (Fin x2, Fin y2, Fin w2)
    /\ sez_to_ecef (Fin phi) (Fin lam)
         (Fin (a * s1 + b * s2)) (Fin (a * e1 + b * e2))
         (Fin (a * z1 + b * z2))
       = Ok (Fin (a * x1 + b * x2), Fin (a * y1 + b * y2),
             Fin (a * w1 + b * w2)).
Proof.
  do 6 eexists.
  split; [ apply sez_to_ecef_finite | ].
  split; [ apply sez_to_ecef_finite | ].
  rewrite sez_to_ecef_finite. apply ok_triple; ring.
Qed.

(** X2: over the reals, the SEZ vector is recovered from the vector
    [sez_to_ecef] returns by the transposed matrix. *)
Theorem sez_to_ecef_transpose (phi lam s e z : R) :
  exists x y w : R,
    sez_to_ecef (Fin phi) (Fin lam) (Fin s) (Fin e) (Fin z)
    = Ok (Fin x, Fin y, Fin w)
    /\ s = x * sin phi * cos lam + y * sin phi * sin lam - w * cos phi
    /\ e = - x * sin lam + y * cos lam
    /\ z = x * cos phi * cos lam + y * cos phi * sin lam + w * sin phi.
Proof.
  do 3 eexists. split; [ apply sez_to_ecef_finite | ].
  pose proof (sin2_as_cos2 phi) as Hp. pose proof (sin2_as_cos2 lam) as Hl.
  repeat split; ring_simplify; rewrite ?Hp, ?Hl; ring.
Qed.

(** X3: over the reals, the rotation keeps the orientation: the cross
    product of the images of the south and east unit vectors is the image
    of the zenith unit vector. *)
Theorem sez_to_ecef_right_handed (phi lam : R) :
  exists sx sy sz ex ey ez zx zy zz : R,
    sez_to_ecef (Fin phi) (Fin lam) (Fin 1) (Fin 0) (Fin 0)
    = Ok (Fin sx, Fin sy, Fin sz)
    /\ sez_to_ecef (Fin phi) (Fin lam) (Fin 0) (Fin 1) (Fin 0)
       = Ok (Fin ex, Fin ey, Fin ez)
    /\ sez_to_ecef (Fin phi) (Fin lam) (Fin 0) (Fin 0) (Fin 1)
       = Ok (Fin zx, Fin zy, Fin zz)
    /\ sy * ez - sz * ey = zx
    /\ sz * ex - sx * ez = zy
    /\ sx * ey - sy * ex = zz.
Proof.
  do 9 eexists.
  do 3 (split; [ apply sez_to_ecef_finite | ]).
  pose proof (sin2_as_cos2 lam) as Hl.
  repeat split; ring_simplify; rewrite ?Hl; ring.
Qed.

(** ** The observer's position *)

Lemma prime_vertical_denom (phi : R) :
  exists D : R,
    0 < D
    /\ D ^ 2 = 1 - value E_E ^ 2 * sin phi ^ 2
    /\ prime_vertical phi = value R_E_KM / D.
Proof.
  exists (sqrt (1 - value E_E ^ 2 * sin phi ^ 2)).
  split; [ apply denom_E_E_pos | split; [ | reflexivity ] ].
  rewrite pow2_sqrt; [ reflexivity | ].
  pose proof (E_E_term_lt_1 phi). lra.
Qed.

(** The equation of the ellipsoid, cleared of its denominators, at the
    values [llh_to_ecef] computes for height 0. *)
Lemma surface_point_equation (phi lam : R) :
  let N := prime_vertical phi in
  let x := (N + 0) * cos phi * cos lam in
  let y := (N + 0) * cos phi * sin lam in
  let z := (N * (1 - value E_E ^ 2) + 0) * sin phi in
  (x ^ 2 + y ^ 2) * (1 - value E_E ^ 2) + z ^ 2
  = value R_E_KM ^ 2 * (1 - value E_E ^ 2).
Proof.
  cbv zeta.
  destruct (prime_vertical_denom phi) as (D & HD & HD2 & ->).
  assert (HD0 : D <> 0) by lra.
  generalize dependent (value R_E_KM). generalize dependent (value E_E).
  intros e2 HD2 a.
  pose proof (sin2_as_cos2 lam) as Hl.
  field_simplify_eq; [ | assumption ].
  rewrite Hl. ring_simplify.
  assert (Hc : cos phi ^ 2 = D ^ 2 - (1 - e2 ^ 2) * sin phi ^ 2)
    by (pose proof (sin2_as_cos2 phi); rewrite HD2; lra).
  rewrite Hc. ring.
Qed.

(** X4: over the reals, at height 0 the position [llh_to_ecef] returns
    lies on the ellipsoid with semi-major axis [R_E_KM] and eccentricity
    [E_E]: [(x^2 + y^2) / a^2 + z^2 / (a^2 (1 - e^2)) = 1]. *)
Theorem llh_to_ecef_on_ellipsoid (phi lam : R) :
  exists x y z : R,
    llh_to_ecef (Fin phi) (Fin lam) (Fin 0) = Ok (Fin x, Fin y, Fin z)
    /\ (x ^ 2 + y ^ 2) / value R_E_KM ^ 2
       + z ^ 2 / (value R_E_KM ^ 2 * (1 - value E_E ^ 2)) = 1.
Proof.
  do 3 eexists. split; [ apply llh_to_ecef_finite | ].
  pose proof (surface_point_equation phi lam) as H. cbv zeta in H.
  pose proof E_E_sqr_lt_1 as He.
  assert (Ha : value R_E_KM <> 0) by (simpl; lra).
  assert (Hk : 1 - value E_E ^ 2 <> 0) by lra.
  generalize dependent (value R_E_KM). generalize dependent (value E_E).
  intros e2 H0 Hk a H Ha.
  field_simplify_eq; [ | split; assumption ].
  apply Rmult_eq_reg_r with (1 - e2 ^ 2); [ | assumption ].
  rewrite <- H. ring.
Qed.

Lemma between_radii (u w k A : R) :
  0 <= u -> 0 <= w -> 0 < k < 1 -> u * k + w = A * k ->
  A * k <= u + w <= A.
Proof. intros Hu Hw Hk H. split; nra. Qed.

(** X5: over the reals, at height 0 the position [llh_to_ecef] returns
    is no farther from the centre than the equatorial radius and no nearer
    than the polar radius [R_E_KM sqrt (1 - E_E^2)] (both squared here). *)
Theorem llh_to_ecef_geocentric_distance (phi lam : R) :
  exists x y z : R,
    llh_to_ecef (Fin phi) (Fin lam) (Fin 0) = Ok (Fin x, Fin y, Fin z)
    /\ value R_E_KM ^ 2 * (1 - value E_E ^ 2)
       <= x ^ 2 + y ^ 2 + z ^ 2
       <= value R_E_KM ^ 2.
Proof.
  do 3 eexists. split; [ apply llh_to_ecef_finite | ].
  pose proof (surface_point_equation phi lam) as H. cbv zeta in H.
  pose proof E_E_sqr_lt_1 as He.
  assert (He0 : 0 < value E_E ^ 2) by (simpl; lra).
  apply between_radii;
    [ apply Rplus_le_le_0_compat; apply pow2_ge_0
    | apply pow2_ge_0 | lra | exact H ].
Qed.

(** X6: mirroring the latitude at the equator mirrors the position:
    [llh_to_ecef] at [- phi] returns the same [x] and [y] and the opposite
    [z]. *)
Theorem llh_to_ecef_mirror (phi lam h : R) :
  exists x y z : R,
    llh_to_ecef (Fin phi) (Fin lam) (Fin h) = Ok (Fin x, Fin y, Fin z)
    /\ llh_to_ecef (Fin (- phi)) (Fin lam) (Fin h)
       = Ok (Fin x, Fin y, Fin (- z)).
Proof.
  do 3 eexists. split; [ apply llh_to_ecef_finite | ].
  rewrite llh_to_ecef_finite.
  assert (HN : prime_vertical (- phi) = prime_vertical phi).
  { unfold prime_vertical. rewrite sin_neg.
    replace ((- sin phi) ^ 2) with (sin phi ^ 2) by ring. reflexivity. }
  rewrite HN, sin_neg, cos_neg. apply ok_triple; ring.
Qed.

Lemma sqrt_one_minus_E_E_sqr : 0.9966 <= sqrt (1 - value E_E ^ 2).
Proof.
  rewrite <- (sqrt_pow2 0.9966) by lra.
  apply sqrt_le_1_alt. simpl. lra.
Qed.

(** X7: at every real latitude the result of [calc_denom] with the
    script's eccentricity lies between [sqrt (1 - E_E^2)] and 1, so the
    radius [N = R_E_KM / denom] of [llh_to_ecef] lies between the
    equatorial radius 6378.137 km and 6400 km. *)
Theorem prime_vertical_bounds (lat : R) :
  exists denom N : R,
    calc_denom E_E (Fin lat) = Ok (Fin denom)
    /\ PyFloat.div R_E_KM (Fin denom) = Ok (Fin N)
    /\ sqrt (1 - value E_E ^ 2) <= denom <= 1
    /\ 6378.137 <= N <= 6400.
Proof.
  pose proof (denom_E_E_pos lat) as Hpos.
  pose proof (E_E_term_lt_1 lat) as Hlt.
  pose proof (sqrt_radicand_le_1 (value E_E) lat) as Hle1.
  assert (Hlow : sqrt (1 - value E_E ^ 2)
                 <= sqrt (1 - value E_E ^ 2 * sin lat ^ 2)).
  { apply sqrt_le_1_alt.
    pose proof (sin_sqr_le_1 lat). pose proof (pow2_ge_0 (value E_E)). nra. }
  pose proof sqrt_one_minus_E_E_sqr as Hnum.
  do 2 eexists.
  split; [ apply calc_denom_E_E | ].
  split; [ unfold R_E_KM; apply div_by_nonzero; lra | ].
  split; [ split; assumption | ].
  set (D := sqrt (1 - value E_E ^ 2 * sin lat ^ 2)) in *.
  assert (HD : 0.9966 <= D) by lra.
  simpl. split.
  - apply Rmult_le_reg_r with D; [ exact Hpos | ].
    unfold Rdiv. rewrite Rmult_assoc, Rinv_l by lra. nra.
  - apply Rmult_le_reg_r with D; [ exact Hpos | ].
    unfold Rdiv. rewrite Rmult_assoc, Rinv_l by lra. nra.
Qed.

(** ** The script's arithmetic on finite arguments *)

(** X8: over the reals, raising the observer by [d] km changes the three
    values the script computes as much as [d] km more of zenith offset:
    height and zenith offset add up.  (In binary64 the two results agree
    up to rounding only.) *)
Theorem height_is_zenith_offset (lat lon h s e z d : R) :
  ecef_of_args
    (mkArgs (Fin lat) (Fin lon) (Fin (h + d)) (Fin s) (Fin e) (Fin z))
  = ecef_of_args
      (mkArgs (Fin lat) (Fin lon) (Fin h) (Fin s) (Fin e) (Fin (z + d))).
Proof.
  pose proof (ecef_of_args_finite lat lon (h + d) s e z) as H1.
  pose proof (ecef_of_args_finite lat lon h s e (z + d)) as H2.
  cbv zeta in H1, H2. rewrite H1, H2. apply ok_triple; ring.
Qed.




(** ** Errors and special values *)

Lemma mul_nan_r (x : pyfloat) : PyFloat.mul x NaN = NaN.
Proof. destruct x; reflexivity. Qed.

Lemma add_nan_r (x : pyfloat) : PyFloat.add x NaN = NaN.
Proof. destruct x; reflexivity. Qed.

Lemma add_fin_zero (x : pyfloat) (r : R) : r = 0 -> PyFloat.add x (Fin r) = x.
Proof.
  intros ->. destruct x; simpl; try reflexivity.
  f_equal. ring.
Qed.

Lemma sez_to_ecef_inf (lat lon s e z : pyfloat) :
  (PyFloat.is_inf lat || PyFloat.is_inf lon)%bool = true ->
  sez_to_ecef lat lon s e z = Raise ValueError.
Proof.
  intros H. unfold sez_to_ecef.
  destruct (PyFloat.is_inf lat) eqn:Hlat.
  - now rewrite (cos_of_inf lat Hlat).
  - simpl in H.
    destruct (cos_not_inf lat Hlat) as [c1 ->].
    destruct (sin_not_inf lat Hlat) as [s1 ->].
    now rewrite (cos_of_inf lon H).
Qed.

(** X10: [llh_to_ecef] raises exactly when the latitude or the longitude is
    infinite, and then a [ValueError]; no latitude, longitude or height,
    [nan] and infinite heights included, makes its division raise
    [ZeroDivisionError]. *)
Theorem llh_to_ecef_errors (lat lon h : pyfloat) :
  if (PyFloat.is_inf lat || PyFloat.is_inf lon)%bool
  then llh_to_ecef lat lon h = Raise ValueError
  else exists x y z, llh_to_ecef lat lon h = Ok (x, y, z).
Proof.
  destruct (PyFloat.is_inf lat) eqn:Hlat; simpl.
  - now apply llh_to_ecef_inf_lat.
  - destruct (PyFloat.is_inf lon) eqn:Hlon.
    + now apply llh_to_ecef_inf_lon.
    + now apply llh_to_ecef_not_inf.
Qed.

(** X11: [sez_to_ecef] raises exactly when the latitude or the longitude
    is infinite, and then a [ValueError]; the SEZ vector, whatever it
    holds, raises nothing. *)
Theorem sez_to_ecef_errors (lat lon s e z : pyfloat) :
  if (PyFloat.is_inf lat || PyFloat.is_inf lon)%bool
  then sez_to_ecef lat lon s e z = Raise ValueError
  else exists x y w, sez_to_ecef lat lon s e z = Ok (x, y, w).
Proof.
  destruct (PyFloat.is_inf lat || PyFloat.is_inf lon)%bool eqn:H.
  - now apply sez_to_ecef_inf.
  - apply orb_false_elim in H. destruct H as [Hlat Hlon].
    now apply sez_to_ecef_not_inf.
Qed.

Lemma ecef_of_args_cases (a : args) :
  ecef_of_args a = Raise ValueError
  \/ exists x y z, ecef_of_args a = Ok (x, y, z).
Proof.
  destruct (PyFloat.is_inf (o_lat_deg a) || PyFloat.is_inf (o_lon_deg a))%bool
    eqn:Hinf.
  - left. now apply ecef_of_args_inf.
  - right. apply orb_false_elim in Hinf. destruct Hinf as [Hlat Hlon].
    rewrite <- radians_is_inf in Hlat, Hlon.
    destruct (llh_to_ecef_not_inf _ _ (o_hae_km a) Hlat Hlon)
      as (ox & oy & oz & Hllh).
    destruct (sez_to_ecef_not_inf _ _ (s_km a) (e_km a) (z_km a) Hlat Hlon)
      as (rx & ry & rz & Hsez).
    unfold ecef_of_args. rewrite Hllh, Hsez. cbn [bind]. eauto.
Qed.

(** X12: every run, on any command line, is one of three: the usage line
    and [exit()]; nothing printed and an uncaught [ValueError]; or three
    numbers printed and the end of the script reached.  In particular no
    run dies of [ZeroDivisionError] or [OverflowError], and none prints one
    or two numbers. *)
Theorem main_outcomes (argv : list pystr) :
  main argv = mkRun [Text usage] Exited
  \/ main argv = mkRun [] (Uncaught ValueError)
  \/ exists x y z, main argv = mkRun [Num x; Num y; Num z] Finished.
Proof.
  unfold main. destruct (Nat.eqb (List.length argv) 7); [ | now left ].
  right.
  destruct (parse_args argv) as [a | e] eqn:Hp; cbn [bind].
  - destruct (ecef_of_args_cases a) as [-> | (x & y & z & ->)].
    + now left.
    + right. eauto.
  - left. destruct e; [ reflexivity | | ];
      exfalso; revert Hp; unfold parse_args;
    repeat match goal with
    | |- context [ float ?s ] =>
        let E := fresh "E" in
        (destruct (float s) eqn:E; cbn [bind];
         [ | apply float_raises in E; congruence ])
    end;
    discriminate.
Qed.

(** X13: with the SEZ vector (0, 0, 0) the script's three values are the
    observer's position as [llh_to_ecef] returns it, at any latitude,
    longitude and height, special values included; where [llh_to_ecef]
    raises, so does the script. *)
Theorem zero_offset_is_observer (lat lon h : pyfloat) :
  ecef_of_args (mkArgs lat lon h (Fin 0) (Fin 0) (Fin 0))
  = llh_to_ecef (math.radians lat) (math.radians lon) h.
Proof.
  unfold ecef_of_args. cbn [o_lat_deg o_lon_deg o_hae_km s_km e_km z_km].
  pose proof (radians_is_inf lat) as Rlat.
  pose proof (radians_is_inf lon) as Rlon.
  generalize dependent (math.radians lat).
  generalize dependent (math.radians lon).
  intros lam Rlon phi Rlat. clear Rlon Rlat.
  destruct (PyFloat.is_inf phi || PyFloat.is_inf lam)%bool eqn:Hinf.
  - destruct (PyFloat.is_inf phi) eqn:Hphi; simpl in Hinf.
    + now rewrite llh_to_ecef_inf_lat.
    + now rewrite llh_to_ecef_inf_lon.
  - apply orb_false_elim in Hinf. destruct Hinf as [Hphi Hlam].
    destruct (llh_to_ecef_not_inf phi lam h Hphi Hlam)
      as (ox & oy & oz & Hllh).
    rewrite Hllh. cbn [bind].
    destruct (not_inf_cases phi Hphi) as [[p ->] | ->];
      destruct (not_inf_cases lam Hlam) as [[l ->] | ->].
    + unfold sez_to_ecef; simpl.
      rewrite !add_fin_zero by ring. reflexivity.
    + revert Hllh. unfold llh_to_ecef.
      rewrite calc_denom_E_E, sqr_E_E. cbn [bind].
      pose proof (denom_E_E_pos p) as Hpos.
      unfold R_E_KM at 1. rewrite div_by_nonzero by lra.
      simpl. rewrite !mul_nan_r. intros [= <- <- <-].
      rewrite add_fin_zero by ring. reflexivity.
    + revert Hllh. unfold llh_to_ecef, calc_denom. rewrite sqr_E_E. simpl.
      rewrite ?mul_nan_r, ?add_nan_r. intros [= <- <- <-]. reflexivity.
    + revert Hllh. unfold llh_to_ecef, calc_denom. rewrite sqr_E_E. simpl.
      rewrite ?mul_nan_r, ?add_nan_r. intros [= <- <- <-]. reflexivity.
Qed.

(** X14: the east component moves the printed point horizontally only:
    two runs on six numbers that differ in [e_km] alone, special values
    included, end the same way and have the same third line. *)
Theorem third_line_e_km (argv1 argv2 : list pystr) (a1 a2 : args) :
  List.length argv1 = 7%nat ->
  List.length argv2 = 7%nat ->
  parse_args argv1 = Ok a1 ->
  parse_args argv2 = Ok a2 ->
  o_lat_deg a1 = o_lat_deg a2 ->
  o_lon_deg a1 = o_lon_deg a2 ->
  o_hae_km a1 = o_hae_km a2 ->
  s_km a1 = s_km a2 ->
  z_km a1 = z_km a2 ->
  how (main argv1) = how (main argv2)
  /\ third_line (main argv1) = third_line (main argv2).
Proof.
  intros Hlen1 Hlen2 Hargs1 Hargs2 Hlat Hlon Hh Hs Hz.
  rewrite (main_parsed argv1 a1 Hlen1 Hargs1).
  rewrite (main_parsed argv2 a2 Hlen2 Hargs2).
  destruct a1 as [lat lon h s e z], a2 as [lat2 lon2 h2 s2 e2 z2].
  simpl in *. subst.
  unfold ecef_of_args.
  cbn [o_lat_deg o_lon_deg o_hae_km s_km e_km z_km].
  destruct (llh_to_ecef _ _ h2) as [[[ox oy] oz] | err]; cbn [bind];
    [ | split; reflexivity ].
  unfold sez_to_ecef.
  destruct (math.cos (math.radians lat2)); cbn [bind];
    [ | split; reflexivity ].
  destruct (math.sin (math.radians lat2)); cbn [bind];
    [ | split; reflexivity ].
  destruct (math.cos (math.radians lon2)); cbn [bind];
    [ | split; reflexivity ].
  destruct (math.sin (math.radians lon2)); cbn [bind];
    split; reflexivity.
Qed.

Definition argv_east_5 : list pystr :=
  map str ["sez_to_ecef.py"; "0"; "0"; "0"; "0"; "5"; "0"]%string.

Lemma third_line_e_km_witness :
  how (main argv_zero) = how (main argv_east_5)
  /\ third_line (main argv_zero) = third_line (main argv_east_5).
Proof.
  apply (third_line_e_km argv_zero argv_east_5 args_zero
           (mkArgs (Fin 0) (Fin 0) (Fin 0) (Fin 0) (Fin 5) (Fin 0)));
    reflexivity.
Defined.

(** X15: a [nan] latitude spoils every coordinate: with a longitude that
    is not infinite the script prints [nan] three times and reaches its
    end. *)
Theorem main_nan_latitude (argv : list pystr) (a : args) :
  List.length argv = 7%nat ->
  parse_args argv = Ok a ->
  o_lat_deg a = NaN ->
  PyFloat.is_inf (o_lon_deg a) = false ->
  main argv = mkRun [Num NaN; Num NaN; Num NaN] Finished.
Proof.
  intros Hlen Hargs Hlat Hlon.
  rewrite (main_parsed argv a Hlen Hargs).
  unfold ecef_of_args. rewrite Hlat.
  rewrite <- radians_is_inf in Hlon.
  destruct (cos_not_inf _ Hlon) as [c2 Hc2].
  destruct (sin_not_inf _ Hlon) as [s2 Hs2].
  unfold llh_to_ecef, sez_to_ecef, calc_denom. rewrite sqr_E_E.
  simpl. rewrite Hc2, Hs2. simpl.
  rewrite ?mul_nan_r. simpl. rewrite ?mul_nan_r. reflexivity.
Qed.

Definition argv_nan_lat : list pystr :=
  map str ["sez_to_ecef.py"; "nan"; "45"; "1.5"; "1"; "2"; "3"]%string.

Lemma main_nan_latitude_witness :
  main argv_nan_lat = mkRun [Num NaN; Num NaN; Num NaN] Finished.
Proof.
  eapply (main_nan_latitude argv_nan_lat); reflexivity.
Defined.
